(** * scripts/analyze-har.py: the HAR performance report

    A shallow embedding of [analyze_har] and the facts about its resource
    buckets, its size accounting and the report it prints.

    - Python [int] is [Z]; [str] is [string], one [ascii] per character
      (URLs are ASCII; the emoji of the section headers are kept as their
      UTF-8 bytes, no statement depends on their width).
    - The parsed document is a tree of records, one per JSON object the
      script reads.  A key read with [d\[k\]] is a plain field where the
      HAR format requires it, and an [option] where a statement is about its
      absence (then the read raises [KeyError]); a key read with
      [d.get(k, dflt)] is an [option] and the read is [get].
    - The input contract: the capture has [log], [entries] and [pages], and
      each entry has [request], its [url] and [response], with a string for
      the URL and integers for the sizes and the timings.  The [KeyError]
      of lines 10, 21, 22 and 79 on a capture without one of these keys is
      outside the model, and every fact below is about captures within the
      contract.
    - [print] appends one line to the standard output; an uncaught exception
      ends the run and keeps what was printed before it.
    - A number printed through a float format ([{x / 1024:8.1f}]) stays a
      field of the line, with its numerator, its denominator and its format:
      the division and the rounding are floating point and are not modelled. *)

From Stdlib Require Import ZArith List String Ascii Bool Lia.
From Stdlib Require Import Sorted Permutation.
Import ListNotations.

Local Open Scope string_scope.
Local Open Scope Z_scope.
Local Open Scope list_scope.

(** ** Python strings *)

Module PyStr.

(** [s\[:n\]] *)
Fixpoint take (n : nat) (s : string) : string :=
  match n, s with
  | O, _ => EmptyString
  | S _, EmptyString => EmptyString
  | S n', String c r => String c (take n' r)
  end.

(** [sub in s] *)
Fixpoint contains (sub s : string) : bool :=
  String.prefix sub s ||
  match s with
  | EmptyString => false
  | String _ r => contains sub r
  end.

(** [s.split(sep)] for a separator of one character: never empty. *)
Fixpoint split (sep : ascii) (s : string) : list string :=
  match s with
  | EmptyString => [EmptyString]
  | String c r =>
      if Ascii.eqb c sep then EmptyString :: split sep r
      else match split sep r with
           | [] => [String c EmptyString]
           | h :: t => String c h :: t
           end
  end.

(** [l\[-1\]] on the result of a split. *)
Definition last_item (l : list string) : string := List.last l EmptyString.

(** [c * n] *)
Fixpoint repeat (c : ascii) (n : nat) : string :=
  match n with
  | O => EmptyString
  | S n' => String c (repeat c n')
  end.

(** [f"{s:w}"]: a string under a width and no precision is padded with
    spaces on the right up to [w] characters, and left as it is when it is
    already that long. *)
Definition format (s : string) (w : nat) : string :=
  String.append s (repeat " "%char (w - String.length s)).

End PyStr.

(** [d.get(k, dflt)] *)
Definition get {A : Type} (field : option A) (dflt : A) : A :=
  match field with
  | Some v => v
  | None => dflt
  end.

(** ** The HAR document, as [json.load] returns it *)

Record Content := mkContent {
  mimeType : option string;
  size : option Z
}.

Record Response := mkResponse {
  bodySize : option Z;
  content : option Content
}.

Record Request := mkRequest {
  url : string
}.

Record Entry := mkEntry {
  request : Request;
  response : Response
}.

Record PageTimings := mkPageTimings {
  onContentLoad : option Z;
  onLoad : option Z
}.

Record Page := mkPage {
  pageTimings : option PageTimings
}.

Record Log := mkLog {
  entries : list Entry;
  pages : list Page
}.

Record Har := mkHar {
  log : Log
}.

(** [{}], the default of [response.get('content', {})] *)
Definition empty_content : Content := mkContent None None.

(** ** The loop over the entries *)

Definition Bucket := list (string * Z).

(** The locals the loop updates. *)
Record Locals := mkLocals {
  js_files : Bucket;
  css_files : Bucket;
  font_files : Bucket;
  google_fonts : Bucket;
  total_size : Z
}.

Definition init_locals : Locals := mkLocals [] [] [] [] 0.

(** Lines 21-24 *)
Definition entry_url (entry : Entry) : string := url (request entry).

Definition entry_content (entry : Entry) : Content :=
  get (content (response entry)) empty_content.

Definition entry_mime_type (entry : Entry) : string :=
  get (mimeType (entry_content entry)) EmptyString.

(** Lines 22 and 27-28: [size] after the test on its sign. *)
Definition entry_size (entry : Entry) : Z :=
  let size0 := get (bodySize (response entry)) 0 in
  if size0 <? 0 then get (size (entry_content entry)) 0 else size0.

(** [url.split('/')\[-1\]\[:50\]] *)
Definition file_name (u : string) : string :=
  PyStr.take 50 (PyStr.last_item (PyStr.split "/"%char u)).

(** The four tests of the [if]/[elif] chain, lines 33, 35, 37 and 39. *)
Definition is_js (entry : Entry) : bool :=
  PyStr.contains ".js" (entry_url entry)
  || PyStr.contains "javascript" (entry_mime_type entry).

Definition is_css (entry : Entry) : bool :=
  PyStr.contains ".css" (entry_url entry)
  || PyStr.contains "text/css" (entry_mime_type entry).

Definition is_font (entry : Entry) : bool :=
  existsb (fun ext => PyStr.contains ext (entry_url entry))
          [".ttf"; ".woff"; ".woff2"; ".otf"].

Definition is_google (entry : Entry) : bool :=
  PyStr.contains "fonts.googleapis.com" (entry_url entry)
  || PyStr.contains "fonts.gstatic.com" (entry_url entry).

(** The body of the [for], lines 21-40. *)
Definition loop_body (st : Locals) (entry : Entry) : Locals :=
  let u := entry_url entry in
  let sz := entry_size entry in
  let total := total_size st + sz in
  if is_js entry then
    mkLocals (js_files st ++ [(file_name u, sz)]) (css_files st)
             (font_files st) (google_fonts st) total
  else if is_css entry then
    mkLocals (js_files st) (css_files st ++ [(file_name u, sz)])
             (font_files st) (google_fonts st) total
  else if is_font entry then
    mkLocals (js_files st) (css_files st)
             (font_files st ++ [(file_name u, sz)]) (google_fonts st) total
  else if is_google entry then
    mkLocals (js_files st) (css_files st) (font_files st)
             (google_fonts st ++ [(PyStr.take 80 u, sz)]) total
  else
    mkLocals (js_files st) (css_files st) (font_files st)
             (google_fonts st) total.

(** Lines 20-40. *)
Definition loop (es : list Entry) : Locals := fold_left loop_body es init_locals.

(** ** [list.sort(key=lambda x: x\[1\], reverse=True)]

    Python's sort is stable, and under [reverse=True] equal keys still keep
    their first order: the result is the one list that holds the same
    items, in decreasing order of size, items of one size as they were. *)

Fixpoint insert_desc (x : string * Z) (l : Bucket) : Bucket :=
  match l with
  | [] => [x]
  | y :: r => if snd y <=? snd x then x :: y :: r else y :: insert_desc x r
  end.

Fixpoint sort_desc (l : Bucket) : Bucket :=
  match l with
  | [] => []
  | x :: r => insert_desc x (sort_desc r)
  end.

(** Lines 43-45. *)
Definition sort_buckets (st : Locals) : Locals :=
  mkLocals (sort_desc (js_files st)) (sort_desc (css_files st))
           (sort_desc (font_files st)) (google_fonts st) (total_size st).

(** [sum(s for _, s in bucket)] *)
Definition bucket_sum (b : Bucket) : Z := fold_right (fun p acc => snd p + acc) 0 b.

(** ** Standard output and exceptions *)

(** One field of a printed line: text (literal, or a string formatted with
    [PyStr.format]), an [int] printed by [{n}], or [{num / den:width.precf}]
    (width [0] when the format gives none). *)
Inductive Piece :=
| Txt (s : string)
| Int (n : Z)
| Flt (num den : Z) (width prec : nat).

(** The argument of one call of [print]. *)
Definition Line := list Piece.

Inductive Exn :=
| KeyError (key : string)
| IndexError.

(** A run: the lines printed so far, and an uncaught exception or a value. *)
Definition Run (A : Type) : Type := list Line * (Exn + A).

Definition ret {A : Type} (a : A) : Run A := ([], inr a).

Definition raise {A : Type} (e : Exn) : Run A := ([], inl e).

Definition bind {A B : Type} (m : Run A) (k : A -> Run B) : Run B :=
  match m with
  | (out, inl e) => (out, inl e)
  | (out, inr a) => let (out', r) := k a in (out ++ out', r)
  end.

Notation "x <- m ;; k" := (bind m (fun x => k))
  (at level 61, m at next level, right associativity).
Notation "m ;; k" := (bind m (fun _ => k))
  (at level 61, right associativity).

Definition print (l : Line) : Run unit := ([l], inr tt).

Definition stdout {A : Type} (r : Run A) : list Line := fst r.
Definition outcome {A : Type} (r : Run A) : Exn + A := snd r.

(** [for x in l: body] *)
Fixpoint for_each {A : Type} (l : list A) (body : A -> Run unit) : Run unit :=
  match l with
  | [] => ret tt
  | x :: r => body x ;; for_each r body
  end.

(** [d\[key\]] on a key that may be absent *)
Definition getitem {A : Type} (key : string) (field : option A) : Run A :=
  match field with
  | Some v => ret v
  | None => raise (KeyError key)
  end.

(** [l\[i\]] for [i >= 0] *)
Definition index {A : Type} (l : list A) (i : nat) : Run A :=
  match nth_error l i with
  | Some v => ret v
  | None => raise IndexError
  end.

(** [len(l)] *)
Definition len {A : Type} (l : list A) : Z := Z.of_nat (List.length l).

Definition nl : string := String (ascii_of_nat 10) EmptyString.

(** ** [analyze_har], from line 10 on *)

(** The f-strings, by the line that prints them. *)

Definition line_48 : Line := [Txt "🔍 HAR File Performance Analysis"].

Definition line_49 : Line := [Txt (PyStr.repeat "="%char 60)].

Definition line_51 (total : Z) : Line :=
  [Txt (nl ++ "📊 Total Size: ")%string; Flt total 1024 0 0; Txt "KB"].

Definition line_53 (js : Bucket) : Line :=
  [Txt (nl ++ "📦 JavaScript Files (")%string; Int (len js); Txt " files, ";
   Flt (bucket_sum js) 1024 0 0; Txt "KB total):"].

Definition line_57 (css : Bucket) : Line :=
  [Txt (nl ++ "🎨 CSS Files (")%string; Int (len css); Txt " files, ";
   Flt (bucket_sum css) 1024 0 0; Txt "KB total):"].

Definition line_61 (fonts : Bucket) : Line :=
  [Txt (nl ++ "🔤 Font Files (")%string; Int (len fonts); Txt " files, ";
   Flt (bucket_sum fonts) 1024 0 0; Txt "KB total):"].

Definition line_66 (google : Bucket) : Line :=
  [Txt (nl ++ "⚠️  Google Fonts Found (")%string; Int (len google);
   Txt " requests):"].

(** Lines 55, 59, 63 (width 45) and 68 (width 75). *)
Definition row (width : nat) (item : string * Z) : Line :=
  let (name, sz) := item in
  [Txt "  "; Txt (PyStr.format name width); Txt " "; Flt sz 1024 8 1; Txt "KB"].

Definition line_74 : Line := [Txt (nl ++ "🔤 Font Format Analysis:")%string].

Definition line_75 (woff2_count : Z) : Line :=
  [Txt "  WOFF2 files: "; Int woff2_count].

Definition line_76 (ttf_count : Z) : Line :=
  [Txt "  TTF files: "; Int ttf_count].

Definition line_83 : Line := [Txt (nl ++ "⏱️  Page Load Metrics:")%string].

(** [content_load] and [page_load] are the milliseconds over 1000. *)
Definition line_84 (content_load_ms : Z) : Line :=
  [Txt "  DOM Content Loaded: "; Flt content_load_ms 1000 0 2; Txt "s"].

Definition line_85 (page_load_ms : Z) : Line :=
  [Txt "  Page Load Complete: "; Flt page_load_ms 1000 0 2; Txt "s"].

(** Lines 71-72: [len(\[f for f in font_files if ext in f\[0\]\])] *)
Definition count_format (ext : string) (fonts : Bucket) : Z :=
  len (filter (fun f => PyStr.contains ext (fst f)) fonts).

Definition analyze_har (data : Har) : Run unit :=
  let st := sort_buckets (loop (entries (log data))) in
  print line_48 ;;
  print line_49 ;;
  print (line_51 (total_size st)) ;;
  print (line_53 (js_files st)) ;;
  for_each (firstn 10 (js_files st)) (fun item => print (row 45 item)) ;;
  print (line_57 (css_files st)) ;;
  for_each (firstn 5 (css_files st)) (fun item => print (row 45 item)) ;;
  print (line_61 (font_files st)) ;;
  for_each (font_files st) (fun item => print (row 45 item)) ;;
  match google_fonts st with
  | [] => ret tt
  | _ :: _ =>
      print (line_66 (google_fonts st)) ;;
      for_each (firstn 5 (google_fonts st)) (fun item => print (row 75 item))
  end ;;
  let woff2_count := count_format ".woff2" (font_files st) in
  let ttf_count := count_format ".ttf" (font_files st) in
  print line_74 ;;
  print (line_75 woff2_count) ;;
  print (line_76 ttf_count) ;;
  page <- index (pages (log data)) 0 ;;
  timings <- getitem "pageTimings" (pageTimings page) ;;
  let content_load_ms := get (onContentLoad timings) 0 in
  timings' <- getitem "pageTimings" (pageTimings page) ;;
  let page_load_ms := get (onLoad timings') 0 in
  print line_83 ;;
  print (line_84 content_load_ms) ;;
  print (line_85 page_load_ms).

(** ** The report, section by section *)

Definition rows (width : nat) (b : Bucket) : list Line := map (row width) b.

Definition header_section : list Line := [line_48; line_49].

Definition total_section (st : Locals) : list Line := [line_51 (total_size st)].

Definition js_section (st : Locals) : list Line :=
  line_53 (js_files st) :: rows 45 (firstn 10 (js_files st)).

Definition css_section (st : Locals) : list Line :=
  line_57 (css_files st) :: rows 45 (firstn 5 (css_files st)).

Definition font_section (st : Locals) : list Line :=
  line_61 (font_files st) :: rows 45 (font_files st).

Definition google_section (st : Locals) : list Line :=
  match google_fonts st with
  | [] => []
  | _ :: _ => line_66 (google_fonts st) :: rows 75 (firstn 5 (google_fonts st))
  end.

Definition format_section (st : Locals) : list Line :=
  [line_74; line_75 (count_format ".woff2" (font_files st));
   line_76 (count_format ".ttf" (font_files st))].

Definition metrics_section (timings : PageTimings) : list Line :=
  [line_83; line_84 (get (onContentLoad timings) 0);
   line_85 (get (onLoad timings) 0)].

(** All that is printed before line 79. *)
Definition size_report (st : Locals) : list Line :=
  header_section ++ total_section st ++ js_section st ++ css_section st
  ++ font_section st ++ google_section st ++ format_section st.

(** The locals at line 47, for a document. *)
Definition locals_of (data : Har) : Locals :=
  sort_buckets (loop (entries (log data))).

(** The sizes printed in the [8.1f] KB column of some lines, in order. *)
Definition kb_column (p : Piece) : list Z :=
  match p with
  | Flt num den width prec =>
      if (den =? 1024) && Nat.eqb width 8 && Nat.eqb prec 1 then [num] else []
  | _ => []
  end.

Definition printed_sizes (ls : list Line) : list Z :=
  flat_map (flat_map kb_column) ls.

(** The text printed in the name column of a row, and [None] on the lines
    that are not rows. *)
Definition name_column (l : Line) : option string :=
  match l with
  | [Txt _; Txt field; Txt _; Flt _ _ _ _; Txt _] => Some field
  | _ => None
  end.

(** ** What the loop appends for an entry *)

Definition named_item (entry : Entry) : string * Z :=
  (file_name (entry_url entry), entry_size entry).

Definition url_item (entry : Entry) : string * Z :=
  (PyStr.take 80 (entry_url entry), entry_size entry).

(** The entries that reach each branch of the chain. *)
Definition to_js (entry : Entry) : bool := is_js entry.

Definition to_css (entry : Entry) : bool := negb (is_js entry) && is_css entry.

Definition to_font (entry : Entry) : bool :=
  negb (is_js entry) && negb (is_css entry) && is_font entry.

Definition to_google (entry : Entry) : bool :=
  negb (is_js entry) && negb (is_css entry) && negb (is_font entry)
  && is_google entry.

Definition uncategorized (entry : Entry) : bool :=
  negb (is_js entry) && negb (is_css entry) && negb (is_font entry).

Definition sizes_sum (es : list Entry) : Z :=
  fold_right (fun e acc => entry_size e + acc) 0 es.

(** The order of a sorted bucket: the larger size first. *)
Definition by_size (a b : string * Z) : Prop := snd b <= snd a.

(** Decreasing order of a column of sizes. *)
Definition Descending (l : list Z) : Prop := StronglySorted Z.ge l.

(** ** The classification and the size, as the specification words them *)

Inductive Category := JavaScript | CSS | Font.

Definition Category_eqb (a b : Category) : bool :=
  match a, b with
  | JavaScript, JavaScript | CSS, CSS | Font, Font => true
  | _, _ => false
  end.

(** The ordered rule table: a predicate on the URL and the MIME type, and
    the category it gives. *)
Definition spec_rules : list ((string -> string -> bool) * Category) :=
  [ (fun u mime => PyStr.contains ".js" u || PyStr.contains "javascript" mime,
     JavaScript);
    (fun u mime => PyStr.contains ".css" u || PyStr.contains "text/css" mime,
     CSS);
    (fun u _ => PyStr.contains ".ttf" u || PyStr.contains ".woff" u
                || PyStr.contains ".woff2" u || PyStr.contains ".otf" u,
     Font) ].

Fixpoint first_match (rules : list ((string -> string -> bool) * Category))
    (u mime : string) : option Category :=
  match rules with
  | [] => None
  | (p, c) :: rest => if p u mime then Some c else first_match rest u mime
  end.

Definition spec_primary_category (entry : Entry) : option Category :=
  first_match spec_rules (entry_url entry) (entry_mime_type entry).

Definition in_category (c : Category) (entry : Entry) : bool :=
  match spec_primary_category entry with
  | Some c' => Category_eqb c c'
  | None => false
  end.

Definition bucket_of (c : Category) (st : Locals) : Bucket :=
  match c with
  | JavaScript => js_files st
  | CSS => css_files st
  | Font => font_files st
  end.

(** "bodySize when present and non-negative; otherwise the content
    descriptor's size when present; otherwise 0" *)
Definition spec_size (entry : Entry) : Z :=
  match bodySize (response entry) with
  | Some b => if 0 <=? b then b else get (size (entry_content entry)) 0
  | None => get (size (entry_content entry)) 0
  end.

(** ** Sample documents *)

Module Sample.

Definition entry (u : string) (body : option Z) (c : option Content) : Entry :=
  mkEntry (mkRequest u) (mkResponse body c).

(** Scenario A *)
Definition app_js : Entry :=
  entry "https://cdn.example.com/app.min.js" (Some 20480) None.

(** Scenario B *)
Definition cached : Entry :=
  entry "https://cdn.example.com/logo.png" (Some (-1))
        (Some (mkContent None (Some 512))).

(** Scenario C *)
Definition roboto : Entry :=
  entry "https://fonts.gstatic.com/s/roboto/v1/abc.woff2" (Some 100) None.

Definition icons : Entry :=
  entry "https://fonts.googleapis.com/icon?family=Material" (Some 7)
        (Some (mkContent (Some "text/html") None)).

Definition no_body_size : Entry :=
  entry "https://cdn.example.com/logo.png" None
        (Some (mkContent (Some "image/png") (Some 512))).

Definition negative : Entry :=
  entry "https://cdn.example.com/logo.png" (Some (-1))
        (Some (mkContent (Some "image/png") (Some (-50)))).

Definition negative_js : Entry :=
  entry "https://cdn.example.com/app.min.js" (Some (-1))
        (Some (mkContent None (Some (-2)))).

Definition both : Entry :=
  entry "https://cdn.example.com/theme.css.js" (Some 3)
        (Some (mkContent (Some "text/css") None)).

Definition long_name : string :=
  "aaaaaaaaaaaaaaaaaaaaaaaaaaaaaaaaaaaaaaaaaaaaaaa.js".

Definition long_js : Entry :=
  entry ("https://cdn.example.com/" ++ long_name)%string (Some 2048) None.

Definition timings : PageTimings := mkPageTimings None (Some 2500).

Definition har (es : list Entry) (ps : list Page) : Har := mkHar (mkLog es ps).

End Sample.

(** More entries and pages, for the facts on the rest of the script. *)
Module Case.

Definition manifest : Entry :=
  Sample.entry "https://cdn.example.com/manifest.json" (Some 300)
               (Some (mkContent (Some "application/json") None)).

Definition folder_js : Entry :=
  Sample.entry "https://cdn.example.com/app.js/" (Some 10) None.

Definition inter : Entry :=
  Sample.entry "https://cdn.example.com/fonts/inter.ttf" (Some 100) None.

Definition style : Entry :=
  Sample.entry "https://cdn.example.com/site.css" (Some 100) None.

Definition vendor_js : Entry :=
  Sample.entry "https://cdn.example.com/vendor.js" (Some 20480) None.

Definition page : Page := mkPage (Some Sample.timings).

Definition other_page : Page := mkPage None.

End Case.

(** The calls of [print] whose text begins with a newline character: they
    put a blank line before their own. *)
Definition starts_with_newline (l : Line) : bool :=
  match l with
  | Txt (String c _) :: _ => Ascii.eqb c (ascii_of_nat 10)
  | _ => false
  end.

(** What is printed from line 79 on. *)
Definition page_metrics (data : Har) : list Line :=
  match pages (log data) with
  | [] => []
  | page :: _ =>
      match pageTimings page with
      | None => []
      | Some timings => metrics_section timings
      end
  end.

(** The widths of the name column, with the length the names of that
    column were cut to when they were collected. *)
Definition column_limit (width limit : nat) : Prop :=
  (width = 45 /\ limit = 50)%nat \/ (width = 75 /\ limit = 80)%nat.

(** * Facts *)

(** ** Strings *)

Lemma take_length (n : nat) (s : string) :
  String.length (PyStr.take n s) = Nat.min n (String.length s).
Proof.
  revert s; induction n as [|n IH]; intros [|c r]; simpl; auto.
Qed.

Lemma take_all (n : nat) (s : string) :
  (String.length s <= n)%nat -> PyStr.take n s = s.
Proof.
  revert s; induction n as [|n IH]; intros [|c r]; simpl; intros H;
    try reflexivity; try lia.
  f_equal. apply IH. lia.
Qed.

Lemma repeat_length (c : ascii) (n : nat) :
  String.length (PyStr.repeat c n) = n.
Proof.
  induction n; simpl; congruence.
Qed.

Lemma append_length (s t : string) :
  String.length (s ++ t)%string = (String.length s + String.length t)%nat.
Proof.
  induction s; simpl; congruence.
Qed.

Lemma append_empty (s : string) : (s ++ EmptyString)%string = s.
Proof.
  induction s; simpl; congruence.
Qed.

Lemma format_length (s : string) (w : nat) :
  String.length (PyStr.format s w) = Nat.max w (String.length s).
Proof.
  unfold PyStr.format. rewrite append_length, repeat_length. lia.
Qed.

Lemma format_long (s : string) (w : nat) :
  (w <= String.length s)%nat -> PyStr.format s w = s.
Proof.
  intros H. unfold PyStr.format.
  replace (w - String.length s)%nat with O by lia.
  apply append_empty.
Qed.

Lemma prefix_append (s t : string) : String.prefix s (s ++ t)%string = true.
Proof.
  induction s as [|c s IH]; simpl.
  - destruct t; reflexivity.
  - destruct (ascii_dec c c); [assumption | congruence].
Qed.

Lemma prefix_split (sub s : string) :
  String.prefix sub s = true -> exists post, s = (sub ++ post)%string.
Proof.
  revert s; induction sub as [|c sub IH]; intros s H.
  - exists s; reflexivity.
  - destruct s as [|d s]; simpl in H; [discriminate|].
    destruct (ascii_dec c d) as [->|]; [|discriminate].
    destruct (IH _ H) as [post ->]. exists post; reflexivity.
Qed.

(** [PyStr.contains] is the substring test. *)
Lemma contains_spec (sub s : string) :
  PyStr.contains sub s = true <->
  exists pre post, s = (pre ++ sub ++ post)%string.
Proof.
  split.
  - induction s as [|c s IH]; cbn [PyStr.contains];
      rewrite orb_true_iff; intros [H|H].
    + destruct (prefix_split _ _ H) as [post ->].
      exists EmptyString, post; reflexivity.
    + discriminate.
    + destruct (prefix_split _ _ H) as [post ->].
      exists EmptyString, post; reflexivity.
    + destruct (IH H) as (pre & post & ->).
      exists (String c pre), post; reflexivity.
  - intros (pre & post & ->). induction pre as [|c pre IH].
    + change (EmptyString ++ sub ++ post)%string with (sub ++ post)%string.
      destruct (sub ++ post)%string eqn:E; cbn [PyStr.contains];
        rewrite <- E, prefix_append; reflexivity.
    + change (String c pre ++ sub ++ post)%string
        with (String c (pre ++ sub ++ post)%string).
      cbn [PyStr.contains]. rewrite IH. apply orb_true_r.
Qed.

(** ** The sort *)

Lemma insert_desc_perm (x : string * Z) (l : Bucket) :
  Permutation (x :: l) (insert_desc x l).
Proof.
  induction l as [|y r IH]; simpl.
  - apply Permutation_refl.
  - destruct (snd y <=? snd x).
    + apply Permutation_refl.
    + eapply perm_trans; [apply perm_swap|]. now apply perm_skip.
Qed.

Lemma sort_desc_perm (l : Bucket) : Permutation l (sort_desc l).
Proof.
  induction l as [|x r IH]; simpl.
  - constructor.
  - eapply perm_trans; [apply perm_skip, IH | apply insert_desc_perm].
Qed.

Lemma insert_desc_sorted (x : string * Z) (l : Bucket) :
  StronglySorted by_size l -> StronglySorted by_size (insert_desc x l).
Proof.
  induction 1 as [|y r Hs IH Hy]; simpl.
  - repeat constructor.
  - destruct (snd y <=? snd x) eqn:E.
    + apply Z.leb_le in E. constructor.
      * now constructor.
      * constructor; [exact E|].
        eapply Forall_impl; [|exact Hy]. unfold by_size. intros; lia.
    + apply Z.leb_gt in E. constructor; [exact IH|].
      eapply Permutation_Forall; [apply insert_desc_perm|].
      constructor; [unfold by_size; lia | exact Hy].
Qed.

Lemma sort_desc_sorted (l : Bucket) : StronglySorted by_size (sort_desc l).
Proof.
  induction l; simpl; [constructor | now apply insert_desc_sorted].
Qed.

(** Stable: the items of one size come out in the order they went in. *)
Lemma insert_desc_stable (k : Z) (x : string * Z) (l : Bucket) :
  filter (fun p => snd p =? k) (insert_desc x l)
  = filter (fun p => snd p =? k) (x :: l).
Proof.
  induction l as [|y r IH]; [reflexivity|].
  cbn [insert_desc]. destruct (snd y <=? snd x) eqn:E; [reflexivity|].
  apply Z.leb_gt in E. cbn [filter] in *. rewrite IH.
  destruct (snd y =? k) eqn:Ey; [|reflexivity].
  apply Z.eqb_eq in Ey.
  replace (snd x =? k) with false; [reflexivity|].
  symmetry; apply Z.eqb_neq; lia.
Qed.

Lemma sort_desc_stable (k : Z) (l : Bucket) :
  filter (fun p => snd p =? k) (sort_desc l) = filter (fun p => snd p =? k) l.
Proof.
  induction l as [|x r IH]; [reflexivity|].
  cbn [sort_desc]. rewrite insert_desc_stable. cbn [filter]. now rewrite IH.
Qed.

Lemma firstn_In {A : Type} (x : A) (n : nat) (l : list A) :
  In x (firstn n l) -> In x l.
Proof.
  revert l; induction n as [|n IH]; intros [|y l]; simpl; try tauto.
  intros [H|H]; auto.
Qed.

Lemma sorted_firstn {A : Type} (R : A -> A -> Prop) (n : nat) (l : list A) :
  StronglySorted R l -> StronglySorted R (firstn n l).
Proof.
  intros H; revert n; induction H as [|x r Hs IH Hx]; intros [|n]; simpl;
    try constructor.
  - apply IH.
  - rewrite Forall_forall in *. intros y Hy. apply Hx.
    eapply firstn_In; eassumption.
Qed.

Lemma sorted_sizes (l : Bucket) :
  StronglySorted by_size l -> Descending (map snd l).
Proof.
  induction 1 as [|x r Hs IH Hx]; simpl; constructor; [exact IH|].
  rewrite Forall_forall in *. intros z Hz.
  apply in_map_iff in Hz as (y & <- & Hy). specialize (Hx y Hy).
  unfold by_size in Hx. lia.
Qed.

(** ** Sums *)

Lemma bucket_sum_app (a b : Bucket) :
  bucket_sum (a ++ b) = bucket_sum a + bucket_sum b.
Proof.
  induction a as [|x a IH]; simpl; [reflexivity|]. unfold bucket_sum in *.
  simpl in *. lia.
Qed.

Lemma bucket_sum_perm (a b : Bucket) :
  Permutation a b -> bucket_sum a = bucket_sum b.
Proof.
  unfold bucket_sum. induction 1; simpl; lia.
Qed.

Lemma bucket_sum_sort (b : Bucket) : bucket_sum (sort_desc b) = bucket_sum b.
Proof.
  symmetry. apply bucket_sum_perm, sort_desc_perm.
Qed.

(** ** The loop *)

Lemma loop_from (es : list Entry) (st : Locals) :
  let st' := fold_left loop_body es st in
  js_files st' = js_files st ++ map named_item (filter to_js es)
  /\ css_files st' = css_files st ++ map named_item (filter to_css es)
  /\ font_files st' = font_files st ++ map named_item (filter to_font es)
  /\ google_fonts st' = google_fonts st ++ map url_item (filter to_google es)
  /\ total_size st' = total_size st + sizes_sum es.
Proof.
  revert st; induction es as [|e es IH]; intros st; cbn zeta.
  - simpl. rewrite !app_nil_r. repeat split; lia.
  - cbn [fold_left filter sizes_sum fold_right].
    destruct (IH (loop_body st e)) as (Hj & Hc & Hf & Hg & Ht).
    rewrite Hj, Hc, Hf, Hg, Ht. clear IH Hj Hc Hf Hg Ht.
    unfold loop_body, to_js, to_css, to_font, to_google, sizes_sum.
    destruct (is_js e), (is_css e), (is_font e), (is_google e); simpl;
      rewrite <- ?app_assoc; repeat split; try reflexivity; lia.
Qed.

Lemma loop_buckets (es : list Entry) :
  js_files (loop es) = map named_item (filter to_js es)
  /\ css_files (loop es) = map named_item (filter to_css es)
  /\ font_files (loop es) = map named_item (filter to_font es)
  /\ google_fonts (loop es) = map url_item (filter to_google es)
  /\ total_size (loop es) = sizes_sum es.
Proof.
  exact (loop_from es init_locals).
Qed.

(** ** The run *)

Lemma bind_value {A B : Type} (out : list Line) (a : A) (k : A -> Run B) :
  bind (out, inr a) k = (out ++ fst (k a), snd (k a)).
Proof.
  unfold bind. now destruct (k a).
Qed.

Lemma bind_print {B : Type} (l : Line) (k : unit -> Run B) :
  bind (print l) k = (l :: fst (k tt), snd (k tt)).
Proof.
  unfold print. now rewrite bind_value.
Qed.

Lemma for_each_print {A : Type} (f : A -> Line) (l : list A) :
  for_each l (fun x => print (f x)) = (map f l, inr tt).
Proof.
  induction l as [|x l IH]; [reflexivity|].
  cbn [for_each]. now rewrite bind_print, IH.
Qed.

(** The whole run: the report, then the page metrics or the exception. *)
Lemma analyze_har_run (data : Har) :
  analyze_har data =
  match pages (log data) with
  | [] => (size_report (locals_of data), inl IndexError)
  | page :: _ =>
      match pageTimings page with
      | None => (size_report (locals_of data), inl (KeyError "pageTimings"))
      | Some timings =>
          (size_report (locals_of data) ++ metrics_section timings, inr tt)
      end
  end.
Proof.
  unfold analyze_har, size_report, header_section, total_section, js_section,
    css_section, font_section, google_section, format_section,
    metrics_section, rows.
  fold (locals_of data). set (st := locals_of data).
  rewrite !for_each_print.
  assert (G : (match google_fonts st with
               | [] => ret tt
               | _ :: _ =>
                   print (line_66 (google_fonts st)) ;;
                   (map (row 75) (firstn 5 (google_fonts st)), inr tt)
               end : Run unit)
              = (match google_fonts st with
                 | [] => []
                 | _ :: _ => line_66 (google_fonts st)
                             :: map (row 75) (firstn 5 (google_fonts st))
                 end, inr tt)).
  { destruct (google_fonts st); [reflexivity | now rewrite bind_print]. }
  rewrite G. clear G.
  destruct (pages (log data)) as [|page ps];
    cbv [bind print ret raise index getitem nth_error];
    [| destruct (pageTimings page) as [timings|]];
    cbn [app]; repeat (rewrite <- app_assoc; cbn [app]);
    rewrite ?app_nil_r; reflexivity.
Qed.

Lemma stdout_analyze_har (data : Har) :
  stdout (analyze_har data) = size_report (locals_of data) ++ page_metrics data.
Proof.
  rewrite analyze_har_run. unfold page_metrics, stdout.
  destruct (pages (log data)) as [|page ps]; cbn [fst].
  - now rewrite app_nil_r.
  - destruct (pageTimings page); cbn [fst]; [reflexivity | now rewrite app_nil_r].
Qed.

(** ** The buckets at line 47 *)

Lemma locals_of_buckets (data : Har) :
  let es := entries (log data) in
  js_files (locals_of data) = sort_desc (map named_item (filter to_js es))
  /\ css_files (locals_of data) = sort_desc (map named_item (filter to_css es))
  /\ font_files (locals_of data)
     = sort_desc (map named_item (filter to_font es))
  /\ google_fonts (locals_of data) = map url_item (filter to_google es)
  /\ total_size (locals_of data) = sizes_sum es.
Proof.
  cbn zeta. unfold locals_of, sort_buckets.
  destruct (loop_buckets (entries (log data))) as (Hj & Hc & Hf & Hg & Ht).
  cbn [js_files css_files font_files google_fonts total_size].
  now rewrite Hj, Hc, Hf, Hg, Ht.
Qed.

Lemma file_name_length (u : string) : (String.length (file_name u) <= 50)%nat.
Proof.
  unfold file_name. rewrite take_length. lia.
Qed.

Lemma sorted_named_length (item : string * Z) (es : list Entry) :
  In item (sort_desc (map named_item es)) ->
  (String.length (fst item) <= 50)%nat.
Proof.
  intros H.
  apply (Permutation_in _ (Permutation_sym (sort_desc_perm _))) in H.
  apply in_map_iff in H as (e & <- & _). apply file_name_length.
Qed.

Lemma url_item_length (item : string * Z) (es : list Entry) :
  In item (map url_item es) -> (String.length (fst item) <= 80)%nat.
Proof.
  intros H. apply in_map_iff in H as (e & <- & _).
  cbn [url_item fst]. rewrite take_length. lia.
Qed.

(** ** The columns of the printed lines *)

Lemma name_column_row (width : nat) (item : string * Z) :
  name_column (row width item) = Some (PyStr.format (fst item) width).
Proof.
  now destruct item.
Qed.

Lemma printed_sizes_rows (width : nat) (b : Bucket) :
  printed_sizes (rows width b) = map snd b.
Proof.
  unfold printed_sizes, rows.
  induction b as [|[name sz] b IH]; [reflexivity|].
  cbn [map flat_map snd]. rewrite IH. reflexivity.
Qed.

(** * The claims *)

(** ** The Google-Fonts bucket *)

(** C1, as stated, fails on Scenario C: the entry for
    [https://fonts.gstatic.com/s/roboto/v1/abc.woff2] is a Google-Fonts URL,
    it joins the Font bucket as [abc.woff2], and the Google-Fonts bucket
    stays empty. *)
Lemma roboto_not_in_google_fonts :
  is_google Sample.roboto = true
  /\ font_files (loop [Sample.roboto]) = [("abc.woff2", 100)]
  /\ google_fonts (loop [Sample.roboto]) = [].
Proof.
  repeat split; vm_compute; reflexivity.
Qed.

(** C1, amended: the Google-Fonts test is the last [elif] of the chain.  The
    bucket holds (URL cut to 80 characters, size), in entry order, for the
    entries whose URL contains [fonts.googleapis.com] or [fonts.gstatic.com]
    and that matched none of the JavaScript, CSS and Font tests; an entry
    that has a primary category leaves the bucket as it was. *)
Theorem google_fonts_last_branch (es : list Entry) (st : Locals) (entry : Entry) :
  google_fonts (loop es)
  = map (fun e => (PyStr.take 80 (entry_url e), entry_size e))
        (filter (fun e => negb (is_js e) && negb (is_css e)
                          && negb (is_font e) && is_google e) es)
  /\ google_fonts (loop_body st entry)
     = if is_js entry || is_css entry || is_font entry then google_fonts st
       else if is_google entry
            then google_fonts st
                 ++ [(PyStr.take 80 (entry_url entry), entry_size entry)]
            else google_fonts st.
Proof.
  split.
  - apply loop_buckets.
  - unfold loop_body.
    destruct (is_js entry), (is_css entry), (is_font entry), (is_google entry);
      reflexivity.
Qed.

(** ** The recorded size *)

(** C2, as stated, fails when [bodySize] is absent: the default of the
    [get] is 0, 0 is not negative, and the content size (512 here) is never
    read. *)
Lemma absent_body_size_is_zero :
  entry_size Sample.no_body_size = 0
  /\ spec_size Sample.no_body_size = 512
  /\ total_size (loop [Sample.no_body_size]) = 0.
Proof.
  repeat split; vm_compute; reflexivity.
Qed.

(** C2, amended: the size added to the total is [bodySize] when it is
    present and not negative; the size of the content descriptor (0 when
    the descriptor or its size is absent) when [bodySize] is negative; and
    0 when [bodySize] is absent. *)
Theorem recorded_size (st : Locals) (entry : Entry) :
  total_size (loop_body st entry)
  = total_size st
    + match bodySize (response entry) with
      | Some b =>
          if 0 <=? b then b
          else match content (response entry) with
               | Some c => match size c with Some s => s | None => 0 end
               | None => 0
               end
      | None => 0
      end.
Proof.
  assert (H : total_size (loop_body st entry) = total_size st + entry_size entry).
  { unfold loop_body.
    destruct (is_js entry), (is_css entry), (is_font entry), (is_google entry);
      reflexivity. }
  rewrite H. f_equal. unfold entry_size, entry_content, get.
  destruct (bodySize (response entry)) as [b|]; [|reflexivity].
  destruct (Z.ltb_spec b 0), (Z.leb_spec 0 b); try lia; try reflexivity.
  destruct (content (response entry)) as [c|]; reflexivity.
Qed.

(** C10: a negative [bodySize] over a negative content size records the
    negative content size: it is added to the total, and it is the size of
    the item whichever bucket the entry joins. *)
Theorem negative_fallback_kept (st : Locals) (entry : Entry) (b s : Z)
    (c : Content) :
  bodySize (response entry) = Some b -> b < 0 ->
  content (response entry) = Some c -> size c = Some s -> s < 0 ->
  entry_size entry = s
  /\ total_size (loop_body st entry) = total_size st + s
  /\ (is_js entry = true ->
      js_files (loop_body st entry)
      = js_files st ++ [(file_name (entry_url entry), s)])
  /\ (is_js entry = false -> is_css entry = true ->
      css_files (loop_body st entry)
      = css_files st ++ [(file_name (entry_url entry), s)])
  /\ (is_js entry = false -> is_css entry = false -> is_font entry = true ->
      font_files (loop_body st entry)
      = font_files st ++ [(file_name (entry_url entry), s)])
  /\ (is_js entry = false -> is_css entry = false -> is_font entry = false ->
      is_google entry = true ->
      google_fonts (loop_body st entry)
      = google_fonts st ++ [(PyStr.take 80 (entry_url entry), s)]).
Proof.
  intros Hb Hneg Hc Hs _.
  assert (E : entry_size entry = s).
  { unfold entry_size, entry_content. rewrite Hb, Hc. cbn [get]. rewrite Hs.
    cbn [get]. destruct (Z.ltb_spec b 0); [reflexivity | lia]. }
  unfold loop_body. rewrite E.
  repeat split; try reflexivity.
  - destruct (is_js entry), (is_css entry), (is_font entry), (is_google entry);
      reflexivity.
  - now intros ->.
  - now intros -> ->.
  - now intros -> -> ->.
  - now intros -> -> -> ->.
Qed.

Lemma negative_fallback_kept_witness :
  entry_size Sample.negative_js = -2
  /\ total_size (loop_body init_locals Sample.negative_js) = -2
  /\ js_files (loop_body init_locals Sample.negative_js) = [("app.min.js", -2)].
Proof.
  destruct (negative_fallback_kept init_locals Sample.negative_js (-1) (-2)
              (mkContent None (Some (-2))))
    as (Hs & Ht & Hj & _); try reflexivity.
  split; [exact Hs | split; [exact Ht | exact (Hj eq_refl)]].
Defined.

(** ** The primary category *)

(** C8: each of the JavaScript, CSS and Font buckets holds the entries that
    the first-match rule table sends to that category, each entry in one
    bucket at most; and an entry that passes the JavaScript test joins the
    JavaScript bucket alone, whatever the CSS and Font tests say. *)
Theorem primary_bucket_first_match (es : list Entry) :
  (forall c : Category,
     bucket_of c (loop es) = map named_item (filter (in_category c) es))
  /\ (forall (st : Locals) (entry : Entry),
        PyStr.contains ".js" (entry_url entry)
        || PyStr.contains "javascript" (entry_mime_type entry) = true ->
        js_files (loop_body st entry) = js_files st ++ [named_item entry]
        /\ css_files (loop_body st entry) = css_files st
        /\ font_files (loop_body st entry) = font_files st).
Proof.
  split.
  - intros c. destruct (loop_buckets es) as (Hj & Hc & Hf & _).
    assert (E : forall e, in_category JavaScript e = to_js e
                          /\ in_category CSS e = to_css e
                          /\ in_category Font e = to_font e).
    { intros e.
      unfold in_category, spec_primary_category, spec_rules, first_match,
        to_js, to_css, to_font, is_js, is_css, is_font, existsb.
      rewrite orb_false_r, !orb_assoc.
      destruct (PyStr.contains ".js" (entry_url e)
                || PyStr.contains "javascript" (entry_mime_type e));
        [repeat split|].
      destruct (PyStr.contains ".css" (entry_url e)
                || PyStr.contains "text/css" (entry_mime_type e));
        [repeat split|].
      destruct (PyStr.contains ".ttf" (entry_url e)
                || PyStr.contains ".woff" (entry_url e)
                || PyStr.contains ".woff2" (entry_url e)
                || PyStr.contains ".otf" (entry_url e)); repeat split. }
    destruct c; cbn [bucket_of]; [rewrite Hj | rewrite Hc | rewrite Hf];
      f_equal; apply filter_ext; intros e; symmetry; apply E.
  - intros st entry H. unfold loop_body. fold (is_js entry) in H.
    rewrite H. repeat split.
Qed.

Lemma primary_bucket_first_match_witness :
  is_css Sample.both = true
  /\ js_files (loop_body init_locals Sample.both) = [("theme.css.js", 3)]
  /\ css_files (loop_body init_locals Sample.both) = [].
Proof.
  destruct (primary_bucket_first_match [Sample.both]) as [_ H].
  destruct (H init_locals Sample.both) as (Hj & Hc & _); [reflexivity|].
  split; [reflexivity | split; [exact Hj | exact Hc]].
Defined.

(** ** The sums and the total *)

(** C4, as stated, fails when an entry with no primary category records a
    negative size: here the JavaScript bucket sums to 20480 and the total
    is 20430. *)
Lemma bucket_sums_above_total :
  let st := locals_of (Sample.har [Sample.app_js; Sample.negative] []) in
  bucket_sum (js_files st) + bucket_sum (css_files st)
  + bucket_sum (font_files st) = 20480
  /\ total_size st = 20430.
Proof.
  split; vm_compute; reflexivity.
Qed.

Lemma loop_sums (es : list Entry) :
  bucket_sum (map named_item (filter to_js es))
  + bucket_sum (map named_item (filter to_css es))
  + bucket_sum (map named_item (filter to_font es))
  + sizes_sum (filter uncategorized es)
  = sizes_sum es.
Proof.
  induction es as [|e es IH]; [reflexivity|].
  cbn [filter]. unfold to_js, to_css, to_font, uncategorized in *.
  destruct (is_js e), (is_css e), (is_font e);
    cbn [negb andb map]; unfold bucket_sum, sizes_sum in *;
    cbn [fold_right named_item snd]; lia.
Qed.

Lemma uncategorized_sum_nonneg (es : list Entry) :
  Forall (fun e => uncategorized e = true -> 0 <= entry_size e) es ->
  0 <= sizes_sum (filter uncategorized es).
Proof.
  induction 1 as [|e es He Hes IH]; cbn [filter]; [cbn; lia|].
  destruct (uncategorized e) eqn:U; [|exact IH].
  cbn [sizes_sum fold_right]. specialize (He eq_refl).
  unfold sizes_sum in IH. lia.
Qed.

(** C4, amended: for every document the three bucket sums are the total
    minus the sizes of the entries with no primary category; so the three
    sums are at most the total as soon as no such entry records a negative
    size. *)
Theorem bucket_sums_within_total (data : Har) :
  let st := locals_of data in
  let es := entries (log data) in
  bucket_sum (js_files st) + bucket_sum (css_files st)
  + bucket_sum (font_files st)
  = total_size st - sizes_sum (filter uncategorized es)
  /\ (Forall (fun e => uncategorized e = true -> 0 <= entry_size e) es ->
      bucket_sum (js_files st) + bucket_sum (css_files st)
      + bucket_sum (font_files st) <= total_size st).
Proof.
  cbn zeta.
  destruct (locals_of_buckets data) as (Hj & Hc & Hf & _ & Ht).
  rewrite Hj, Hc, Hf, Ht, !bucket_sum_sort.
  pose proof (loop_sums (entries (log data))) as E.
  split; [lia|].
  intros H. pose proof (uncategorized_sum_nonneg _ H). lia.
Qed.

Lemma bucket_sums_within_total_witness :
  let st := locals_of (Sample.har [Sample.app_js; Sample.cached] []) in
  bucket_sum (js_files st) + bucket_sum (css_files st)
  + bucket_sum (font_files st) <= total_size st.
Proof.
  pose proof (bucket_sums_within_total
                (Sample.har [Sample.app_js; Sample.cached] [])) as T.
  cbn zeta in T. destruct T as [_ H]. apply H.
  repeat constructor; vm_compute; discriminate.
Defined.

(** ** The order of the rows *)

(** C7: in the JavaScript, CSS and Font sections, which come in that order
    after the header and the total, the sizes of the printed rows never
    increase from one row to the next. *)
Theorem printed_sizes_descending (data : Har) :
  let st := locals_of data in
  stdout (analyze_har data)
  = header_section ++ total_section st ++ js_section st ++ css_section st
    ++ font_section st ++ google_section st ++ format_section st
    ++ page_metrics data
  /\ Descending (printed_sizes (js_section st))
  /\ Descending (printed_sizes (css_section st))
  /\ Descending (printed_sizes (font_section st)).
Proof.
  cbn zeta. split.
  - rewrite stdout_analyze_har. unfold size_report.
    now rewrite <- !app_assoc.
  - destruct (locals_of_buckets data) as (Hj & Hc & Hf & _).
    unfold js_section, css_section, font_section.
    change (printed_sizes (?l :: ?r)) with (printed_sizes r).
    unfold printed_sizes at 1 2 3. cbn [flat_map line_53 line_57 line_61 kb_column
      Z.eqb Pos.eqb Nat.eqb andb app].
    fold (printed_sizes (rows 45 (firstn 10 (js_files (locals_of data))))).
    fold (printed_sizes (rows 45 (firstn 5 (css_files (locals_of data))))).
    fold (printed_sizes (rows 45 (font_files (locals_of data)))).
    rewrite !printed_sizes_rows, Hj, Hc, Hf.
    repeat split; apply sorted_sizes; try apply sorted_firstn;
      apply sort_desc_sorted.
Qed.

(** ** The Google-Fonts section *)

(** C9: the Google-Fonts bucket is not sorted.  Its section comes after the
    Font section and, when the bucket is not empty, it is a header and one
    row for each of the first five Google-Fonts entries, in the order of the
    entries of the document. *)
Theorem google_section_in_entry_order (data : Har) :
  let st := locals_of data in
  let google := map url_item (filter to_google (entries (log data))) in
  google_fonts st = google
  /\ stdout (analyze_har data)
     = header_section ++ total_section st ++ js_section st ++ css_section st
       ++ font_section st
       ++ match google with
          | [] => []
          | _ :: _ => line_66 google :: map (row 75) (firstn 5 google)
          end
       ++ format_section st ++ page_metrics data.
Proof.
  cbn zeta. destruct (locals_of_buckets data) as (_ & _ & _ & Hg & _).
  split; [exact Hg|].
  rewrite stdout_analyze_har. unfold size_report, google_section, rows.
  rewrite Hg, <- !app_assoc. reflexivity.
Qed.

(** ** The name column *)

(** C3, as stated, fails on a name of 46 to 50 characters: the width of the
    format pads and never cuts, so the 50 characters of this name are all
    printed in the 45-character column. *)
Lemma long_name_not_cut :
  In [Txt "  "; Txt Sample.long_name; Txt " "; Flt 2048 1024 8 1; Txt "KB"]
     (stdout (analyze_har (Sample.har [Sample.long_js] [])))
  /\ String.length Sample.long_name = 50%nat
  /\ PyStr.format Sample.long_name 45 <> PyStr.take 45 Sample.long_name.
Proof.
  split; [|split].
  - vm_compute. right; right; right; right. left. reflexivity.
  - reflexivity.
  - vm_compute. discriminate.
Qed.

Lemma rows_in_report (st : Locals) (item : string * Z) :
  (In item (firstn 10 (js_files st) ++ firstn 5 (css_files st)
            ++ font_files st) ->
   In (row 45 item) (size_report st))
  /\ (In item (firstn 5 (google_fonts st)) ->
      In (row 75 item) (size_report st)).
Proof.
  unfold size_report, js_section, css_section, font_section, google_section,
    rows.
  split; intros H.
  - apply in_or_app; right. apply in_or_app; right.
    apply in_app_or in H as [H|H]; [|apply in_app_or in H as [H|H]].
    + apply in_or_app; left. right. now apply in_map.
    + apply in_or_app; right. apply in_or_app; left. right. now apply in_map.
    + apply in_or_app; right. apply in_or_app; right. apply in_or_app; left.
      right. now apply in_map.
  - do 5 (apply in_or_app; right). apply in_or_app; left.
    destruct (google_fonts st) as [|g gs]; [destruct H|].
    right. now apply in_map.
Qed.

(** C3, amended: nothing is cut at print time.  Each item that a section
    prints (the ten first of the JavaScript bucket, the five first of the
    CSS bucket, every one of the Font bucket, the five first of the
    Google-Fonts bucket) has its row in the output, and the name column of
    that row is the whole name of the item, followed by spaces up to 45
    characters (75 in the Google-Fonts section) when the name is shorter.
    Names were cut to 50 (80) characters when collected, so the column is
    45 to 50 (75 to 80) characters wide.  Conversely every line with a name
    column is the row of such an item.  Printing is total. *)
Theorem name_column_padded (data : Har) :
  let st := locals_of data in
  let out := stdout (analyze_har data) in
  let printed_45 :=
    firstn 10 (js_files st) ++ firstn 5 (css_files st) ++ font_files st in
  let printed_75 := firstn 5 (google_fonts st) in
  (forall name sz,
     In (name, sz) printed_45 ->
     (String.length name <= 50)%nat
     /\ In [Txt "  ";
            Txt (name ++ PyStr.repeat " "%char (45 - String.length name));
            Txt " "; Flt sz 1024 8 1; Txt "KB"] out)
  /\ (forall name sz,
        In (name, sz) printed_75 ->
        (String.length name <= 80)%nat
        /\ In [Txt "  ";
               Txt (name ++ PyStr.repeat " "%char (75 - String.length name));
               Txt " "; Flt sz 1024 8 1; Txt "KB"] out)
  /\ (forall l field,
        In l out ->
        name_column l = Some field ->
        exists (name : string) (sz : Z) (width limit : nat),
          l = row width (name, sz)
          /\ column_limit width limit
          /\ In (name, sz) (if Nat.eqb width 45 then printed_45 else printed_75)
          /\ (String.length name <= limit)%nat
          /\ field = (name ++ PyStr.repeat " "%char
                                (width - String.length name))%string
          /\ String.length field = Nat.max width (String.length name)
          /\ (width <= String.length name -> field = name)%nat).
Proof.
  cbn zeta.
  destruct (locals_of_buckets data) as (Hj & Hc & Hf & Hg & _).
  assert (L45 : forall item,
            In item (firstn 10 (js_files (locals_of data))
                     ++ firstn 5 (css_files (locals_of data))
                     ++ font_files (locals_of data)) ->
            (String.length (fst item) <= 50)%nat).
  { intros item H.
    apply in_app_or in H as [H|H]; [|apply in_app_or in H as [H|H]].
    - apply firstn_In in H. rewrite Hj in H.
      now apply sorted_named_length in H.
    - apply firstn_In in H. rewrite Hc in H.
      now apply sorted_named_length in H.
    - rewrite Hf in H. now apply sorted_named_length in H. }
  assert (L75 : forall item,
            In item (firstn 5 (google_fonts (locals_of data))) ->
            (String.length (fst item) <= 80)%nat).
  { intros item H. apply firstn_In in H. rewrite Hg in H.
    now apply url_item_length in H. }
  split; [|split].
  - intros name sz H. split; [exact (L45 _ H)|].
    rewrite stdout_analyze_har. apply in_or_app; left.
    exact (proj1 (rows_in_report _ (name, sz)) H).
  - intros name sz H. split; [exact (L75 _ H)|].
    rewrite stdout_analyze_har. apply in_or_app; left.
    exact (proj2 (rows_in_report _ (name, sz)) H).
  - intros l field Hin Hcol.
    assert (R : forall width limit item,
              column_limit width limit ->
              In item (if Nat.eqb width 45
                       then firstn 10 (js_files (locals_of data))
                            ++ firstn 5 (css_files (locals_of data))
                            ++ font_files (locals_of data)
                       else firstn 5 (google_fonts (locals_of data))) ->
              (String.length (fst item) <= limit)%nat ->
              l = row width item ->
              exists name sz width limit,
                l = row width (name, sz)
                /\ column_limit width limit
                /\ In (name, sz)
                      (if Nat.eqb width 45
                       then firstn 10 (js_files (locals_of data))
                            ++ firstn 5 (css_files (locals_of data))
                            ++ font_files (locals_of data)
                       else firstn 5 (google_fonts (locals_of data)))
                /\ (String.length name <= limit)%nat
                /\ field = (name ++ PyStr.repeat " "%char
                                      (width - String.length name))%string
                /\ String.length field = Nat.max width (String.length name)
                /\ (width <= String.length name -> field = name)%nat).
    { intros width limit [name sz] Hw Hitem Hlen ->.
      rewrite name_column_row in Hcol. injection Hcol as <-.
      exists name, sz, width, limit. cbn [fst] in *.
      repeat split; try assumption.
      - apply format_length.
      - apply format_long. }
    assert (C45 : column_limit 45 50) by (left; split; reflexivity).
    assert (C75 : column_limit 75 80) by (right; split; reflexivity).
    rewrite stdout_analyze_har in Hin. unfold size_report in Hin.
    repeat (apply in_app_or in Hin as [Hin|Hin]).
    + destruct Hin as [<-|[<-|[]]]; discriminate Hcol.
    + destruct Hin as [<-|[]]; discriminate Hcol.
    + destruct Hin as [<-|Hin]; [discriminate Hcol|].
      apply in_map_iff in Hin as (item & <- & Hin).
      assert (P : In item (firstn 10 (js_files (locals_of data))
                           ++ firstn 5 (css_files (locals_of data))
                           ++ font_files (locals_of data)))
        by (apply in_or_app; now left).
      exact (R 45%nat 50%nat item C45 P (L45 _ P) eq_refl).
    + destruct Hin as [<-|Hin]; [discriminate Hcol|].
      apply in_map_iff in Hin as (item & <- & Hin).
      assert (P : In item (firstn 10 (js_files (locals_of data))
                           ++ firstn 5 (css_files (locals_of data))
                           ++ font_files (locals_of data)))
        by (apply in_or_app; right; apply in_or_app; now left).
      exact (R 45%nat 50%nat item C45 P (L45 _ P) eq_refl).
    + destruct Hin as [<-|Hin]; [discriminate Hcol|].
      apply in_map_iff in Hin as (item & <- & Hin).
      assert (P : In item (firstn 10 (js_files (locals_of data))
                           ++ firstn 5 (css_files (locals_of data))
                           ++ font_files (locals_of data)))
        by (apply in_or_app; right; apply in_or_app; now right).
      exact (R 45%nat 50%nat item C45 P (L45 _ P) eq_refl).
    + unfold google_section in Hin.
      destruct (google_fonts (locals_of data)) as [|g gs] eqn:G;
        [destruct Hin|].
      destruct Hin as [<-|Hin]; [discriminate Hcol|].
      apply in_map_iff in Hin as (item & <- & Hin).
      exact (R 75%nat 80%nat item C75 Hin (L75 _ Hin) eq_refl).
    + destruct Hin as [<-|[<-|[<-|[]]]]; discriminate Hcol.
    + unfold page_metrics in Hin.
      destruct (pages (log data)) as [|page ps]; [destruct Hin|].
      destruct (pageTimings page) as [timings|]; [|destruct Hin].
      destruct Hin as [<-|[<-|[<-|[]]]]; discriminate Hcol.
Qed.

Lemma name_column_padded_witness :
  (String.length Sample.long_name <= 50)%nat
  /\ In [Txt "  "; Txt Sample.long_name; Txt " "; Flt 2048 1024 8 1; Txt "KB"]
        (stdout (analyze_har (Sample.har [Sample.long_js] []))).
Proof.
  pose proof (name_column_padded (Sample.har [Sample.long_js] [])) as T.
  cbn zeta in T. destruct T as (H & _).
  apply (H Sample.long_name 2048).
  vm_compute. left. reflexivity.
Defined.

(** ** The page metrics *)

Lemma size_report_without_metrics (st : Locals) (l : Line) :
  In l (size_report st) -> l <> line_83.
Proof.
  intros Hin. unfold size_report in Hin.
  assert (R : forall width b, In l (rows width b) -> l <> line_83).
  { intros width b H. apply in_map_iff in H as ([name sz] & <- & _).
    discriminate. }
  repeat (apply in_app_or in Hin as [Hin|Hin]).
  - destruct Hin as [<-|[<-|[]]]; discriminate.
  - destruct Hin as [<-|[]]; discriminate.
  - destruct Hin as [<-|Hin]; [discriminate | eapply R; eassumption].
  - destruct Hin as [<-|Hin]; [discriminate | eapply R; eassumption].
  - destruct Hin as [<-|Hin]; [discriminate | eapply R; eassumption].
  - unfold google_section in Hin. destruct (google_fonts st); [destruct Hin|].
    destruct Hin as [<-|Hin]; [discriminate | eapply R; eassumption].
  - destruct Hin as [<-|[<-|[<-|[]]]]; discriminate.
Qed.

(** C5: with no page, the run ends with an [IndexError] raised at line 79,
    after it has printed the header, the total, the JavaScript, CSS, Font
    and Google-Fonts sections and the font formats, and before it prints
    any line of the page metrics; nothing catches the exception. *)
Theorem no_page_index_error (data : Har) :
  pages (log data) = [] ->
  let st := locals_of data in
  outcome (analyze_har data) = inl IndexError
  /\ stdout (analyze_har data)
     = header_section ++ total_section st ++ js_section st ++ css_section st
       ++ font_section st ++ google_section st ++ format_section st
  /\ ~ In line_83 (stdout (analyze_har data)).
Proof.
  intros H. cbn zeta. rewrite analyze_har_run, H. cbn [outcome stdout fst snd].
  repeat split.
  intros Hin. now apply size_report_without_metrics in Hin.
Qed.

Lemma no_page_index_error_witness :
  outcome (analyze_har (Sample.har [Sample.app_js; Sample.roboto] []))
  = inl IndexError.
Proof.
  apply (no_page_index_error (Sample.har [Sample.app_js; Sample.roboto] [])).
  reflexivity.
Defined.

(** C6, as stated, fails: a first page without [pageTimings] ends the run
    with a [KeyError] on that key, and no timing line is printed. *)
Lemma no_page_timings_key_error :
  let data := Sample.har [] [mkPage None] in
  outcome (analyze_har data) = inl (KeyError "pageTimings")
  /\ ~ In (line_84 0) (stdout (analyze_har data))
  /\ ~ In (line_85 0) (stdout (analyze_har data)).
Proof.
  cbn zeta. split; [reflexivity|].
  split; vm_compute; intuition discriminate.
Qed.

(** C6, amended: [pageTimings] is read with a subscript, so it is a required
    key of the first page: without it the run ends with a [KeyError] after
    the font formats, before any line of the page metrics.  Only the two
    timings inside it are optional: when [pageTimings] is there the run
    ends well and prints both timing lines, an absent timing as 0. *)
Theorem page_timings_required (data : Har) (page : Page) (rest : list Page) :
  pages (log data) = page :: rest ->
  (pageTimings page = None ->
   analyze_har data
   = (size_report (locals_of data), inl (KeyError "pageTimings")))
  /\ (forall timings : PageTimings,
        pageTimings page = Some timings ->
        analyze_har data
        = (size_report (locals_of data)
           ++ [line_83;
               line_84 (match onContentLoad timings with
                        | Some ms => ms
                        | None => 0
                        end);
               line_85 (match onLoad timings with
                        | Some ms => ms
                        | None => 0
                        end)],
           inr tt)).
Proof.
  intros H. rewrite analyze_har_run, H. split.
  - now intros ->.
  - now intros timings ->.
Qed.

Lemma page_timings_required_witness :
  analyze_har (Sample.har [] [mkPage None])
  = (size_report (locals_of (Sample.har [] [mkPage None])),
     inl (KeyError "pageTimings"))
  /\ analyze_har (Sample.har [] [mkPage (Some Sample.timings)])
     = (size_report (locals_of (Sample.har [] [mkPage (Some Sample.timings)]))
        ++ [line_83; line_84 0; line_85 2500],
        inr tt).
Proof.
  split.
  - apply (page_timings_required (Sample.har [] [mkPage None]) (mkPage None) []);
      reflexivity.
  - destruct (page_timings_required
                (Sample.har [] [mkPage (Some Sample.timings)])
                (mkPage (Some Sample.timings)) [] eq_refl) as [_ H].
    exact (H Sample.timings eq_refl).
Defined.

(** * The rest of the script *)

(** ** The substring tests *)

Lemma append_assoc (a b c : string) :
  ((a ++ b) ++ c)%string = (a ++ b ++ c)%string.
Proof.
  induction a as [|x a IH]; simpl; congruence.
Qed.

Lemma contains_longer (a b s : string) :
  PyStr.contains (a ++ b) s = true -> PyStr.contains a s = true.
Proof.
  rewrite !contains_spec. intros (pre & post & ->).
  exists pre, (b ++ post)%string. now rewrite append_assoc.
Qed.

(** X1: the test [sub in s] of lines 33-39 and 71-72 holds exactly when
    [sub] occurs in [s]: [s] is some text, then [sub], then some text.  The
    empty string occurs in every string. *)
Theorem substring_test (sub s : string) :
  (PyStr.contains sub s = true <->
   exists pre post, s = (pre ++ sub ++ post)%string)
  /\ PyStr.contains EmptyString s = true.
Proof.
  split; [apply contains_spec|].
  apply contains_spec. exists EmptyString, s. reflexivity.
Qed.

(** X2: the [.woff2] of the list of font extensions never decides: a URL
    that holds [.woff2] holds [.woff], so the Font test is the test on
    [.ttf], [.woff] and [.otf]. *)
Theorem woff2_extension_redundant (entry : Entry) :
  is_font entry
  = PyStr.contains ".ttf" (entry_url entry)
    || PyStr.contains ".woff" (entry_url entry)
    || PyStr.contains ".otf" (entry_url entry).
Proof.
  unfold is_font, existsb.
  destruct (PyStr.contains ".woff2" (entry_url entry)) eqn:E.
  - rewrite (contains_longer ".woff" "2" _ E).
    now rewrite !orb_true_r.
  - now rewrite orb_false_r, !orb_false_l, orb_assoc.
Qed.

(** X3: the JavaScript test looks for [.js] anywhere in the URL, so a URL
    with a longer extension ([.json], [.jsx], [.js.map]) or with [.js] in a
    folder or in the query goes to the JavaScript bucket, whatever its MIME
    type, and to no other bucket. *)
Theorem js_test_anywhere (st : Locals) (entry : Entry) (pre post : string) :
  entry_url entry = (pre ++ ".js" ++ post)%string ->
  js_files (loop_body st entry) = js_files st ++ [named_item entry]
  /\ css_files (loop_body st entry) = css_files st
  /\ font_files (loop_body st entry) = font_files st
  /\ google_fonts (loop_body st entry) = google_fonts st.
Proof.
  intros H.
  assert (J : is_js entry = true).
  { unfold is_js. apply orb_true_iff. left. apply contains_spec. eauto. }
  unfold loop_body. rewrite J. repeat split.
Qed.

Lemma js_test_anywhere_witness :
  js_files (loop_body init_locals Case.manifest) = [("manifest.json", 300)].
Proof.
  apply (js_test_anywhere init_locals Case.manifest
           "https://cdn.example.com/manifest" "on").
  reflexivity.
Defined.

(** ** The display name *)

Lemma split_not_nil (sep : ascii) (s : string) : PyStr.split sep s <> [].
Proof.
  destruct s as [|c r]; cbn [PyStr.split]; [discriminate|].
  destruct (Ascii.eqb c sep); [discriminate|].
  destruct (PyStr.split sep r); discriminate.
Qed.

Lemma split_app (sep : ascii) (a b : string) :
  PyStr.split sep (a ++ String sep b)
  = PyStr.split sep a ++ PyStr.split sep b.
Proof.
  induction a as [|c a IH].
  - cbn [append PyStr.split app]. now rewrite Ascii.eqb_refl.
  - change (String c a ++ String sep b)%string
      with (String c (a ++ String sep b)%string).
    cbn [PyStr.split]. rewrite IH.
    destruct (Ascii.eqb c sep); [reflexivity|].
    destruct (PyStr.split sep a) as [|h t] eqn:E; [|reflexivity].
    now apply split_not_nil in E.
Qed.

Lemma split_whole (sep : ascii) (s : string) :
  PyStr.contains (String sep EmptyString) s = false ->
  PyStr.split sep s = [s].
Proof.
  induction s as [|c r IH]; [reflexivity|].
  cbn [PyStr.contains String.prefix]. intros H.
  apply orb_false_iff in H as [Hp Hr].
  cbn [PyStr.split]. destruct (Ascii.eqb_spec c sep) as [->|Hne].
  - destruct (ascii_dec sep sep); [|congruence].
    destruct r; discriminate.
  - now rewrite (IH Hr).
Qed.

Lemma last_app_not_nil {A : Type} (l r : list A) (d : A) :
  r <> [] -> List.last (l ++ r) d = List.last r d.
Proof.
  intros H. induction l as [|x l IH]; [reflexivity|].
  cbn [app]. destruct (l ++ r) eqn:E.
  - apply app_eq_nil in E as [_ ->]. congruence.
  - cbn [List.last]. exact IH.
Qed.

Lemma last_item_after_sep (sep : ascii) (a b : string) :
  PyStr.last_item (PyStr.split sep (a ++ String sep b))
  = PyStr.last_item (PyStr.split sep b).
Proof.
  unfold PyStr.last_item. rewrite split_app.
  apply last_app_not_nil, split_not_nil.
Qed.

(** X4: joining the pieces of [s.split(sep)] with the separator gives [s]
    back, and no piece holds the separator. *)
Theorem split_join (sep : ascii) (s : string) :
  String.concat (String sep EmptyString) (PyStr.split sep s) = s
  /\ Forall (fun piece => PyStr.contains (String sep EmptyString) piece = false)
            (PyStr.split sep s).
Proof.
  induction s as [|c r [IHc IHf]]; [split; [reflexivity | repeat constructor]|].
  cbn [PyStr.split]. destruct (Ascii.eqb_spec c sep) as [->|Hne].
  - split.
    + destruct (PyStr.split sep r) as [|h t] eqn:E;
        [now apply split_not_nil in E|].
      cbn [String.concat] in *. rewrite IHc. reflexivity.
    + constructor; [reflexivity | exact IHf].
  - destruct (PyStr.split sep r) as [|h t] eqn:E;
      [now apply split_not_nil in E|].
    split.
    + rewrite <- IHc. destruct t; reflexivity.
    + inversion IHf as [|? ? Hh Ht]; subst. constructor; [|exact Ht].
      cbn [PyStr.contains String.prefix]. rewrite Hh.
      destruct (ascii_dec sep c) as [->|]; [congruence|].
      now destruct h.
Qed.

(** X5: the display name of a URL is what follows its last slash, cut to
    50 characters: the host, the folders and the scheme are dropped, the
    query string is kept; a URL without a slash is its own name. *)
Theorem file_name_after_last_slash (pre seg : string) :
  PyStr.contains "/" seg = false ->
  file_name (pre ++ "/" ++ seg) = PyStr.take 50 seg
  /\ file_name seg = PyStr.take 50 seg.
Proof.
  intros H. unfold file_name.
  change ("/" ++ seg)%string with (String "/"%char seg).
  rewrite last_item_after_sep, (split_whole _ _ H). split; reflexivity.
Qed.

Lemma file_name_after_last_slash_witness :
  file_name ("https://cdn.example.com/static" ++ "/" ++ "app.min.js?v=3")
  = "app.min.js?v=3".
Proof.
  apply (file_name_after_last_slash "https://cdn.example.com/static"
           "app.min.js?v=3").
  reflexivity.
Defined.


(** X7: the name of a Google-Fonts item is the start of the URL: the whole
    URL when it has at most 80 characters, its first 80 otherwise. *)
Theorem url_item_prefix (entry : Entry) :
  String.prefix (fst (url_item entry)) (entry_url entry) = true
  /\ String.length (fst (url_item entry))
     = Nat.min 80 (String.length (entry_url entry))
  /\ ((String.length (entry_url entry) <= 80)%nat ->
      fst (url_item entry) = entry_url entry).
Proof.
  cbn [url_item fst]. split; [|split].
  - generalize 80%nat. generalize (entry_url entry) as s.
    induction s as [|c r IH]; intros [|n]; cbn [PyStr.take String.prefix];
      try reflexivity.
    destruct (ascii_dec c c) as [_|N]; [apply IH | now destruct N].
  - apply take_length.
  - apply take_all.
Qed.

Lemma url_item_prefix_witness :
  fst (url_item Sample.icons) = entry_url Sample.icons.
Proof.
  apply (url_item_prefix Sample.icons). vm_compute. lia.
Defined.

(** ** The loop, over the whole capture *)

Lemma sizes_sum_app (a b : list Entry) :
  sizes_sum (a ++ b) = sizes_sum a + sizes_sum b.
Proof.
  unfold sizes_sum. induction a as [|e a IH]; simpl; lia.
Qed.

Lemma perm_filter {A : Type} (f : A -> bool) (l l' : list A) :
  Permutation l l' -> Permutation (filter f l) (filter f l').
Proof.
  induction 1 as [|x l l' _ IH|x y l|l l' l'' _ IH1 _ IH2]; cbn [filter].
  - constructor.
  - destruct (f x); [now constructor | exact IH].
  - destruct (f x), (f y); try apply Permutation_refl. apply perm_swap.
  - eapply perm_trans; eassumption.
Qed.

Lemma filter_map_comm {A B : Type} (p : B -> bool) (f : A -> B) (l : list A) :
  filter p (map f l) = map f (filter (fun x => p (f x)) l).
Proof.
  induction l as [|x l IH]; [reflexivity|].
  cbn [map filter]. destruct (p (f x)); cbn [map]; now rewrite IH.
Qed.

Lemma filter_both {A : Type} (p q : A -> bool) (l : list A) :
  filter p (filter q l) = filter (fun x => q x && p x) l.
Proof.
  induction l as [|x l IH]; [reflexivity|].
  cbn [filter]. destruct (q x); cbn [filter andb]; now rewrite IH.
Qed.

Lemma bucket_sum_named (es : list Entry) :
  bucket_sum (map named_item es) = sizes_sum es.
Proof.
  unfold bucket_sum, sizes_sum. induction es as [|e es IH]; simpl; lia.
Qed.

(** X8: the loop over two captures one after the other gives, in each of
    the four buckets, the items of the first capture followed by those of
    the second, and a total that is the sum of the two totals. *)
Theorem loop_app (es1 es2 : list Entry) :
  js_files (loop (es1 ++ es2)) = js_files (loop es1) ++ js_files (loop es2)
  /\ css_files (loop (es1 ++ es2))
     = css_files (loop es1) ++ css_files (loop es2)
  /\ font_files (loop (es1 ++ es2))
     = font_files (loop es1) ++ font_files (loop es2)
  /\ google_fonts (loop (es1 ++ es2))
     = google_fonts (loop es1) ++ google_fonts (loop es2)
  /\ total_size (loop (es1 ++ es2))
     = total_size (loop es1) + total_size (loop es2).
Proof.
  destruct (loop_buckets (es1 ++ es2)) as (Hj & Hc & Hf & Hg & Ht).
  destruct (loop_buckets es1) as (Hj1 & Hc1 & Hf1 & Hg1 & Ht1).
  destruct (loop_buckets es2) as (Hj2 & Hc2 & Hf2 & Hg2 & Ht2).
  rewrite Hj, Hc, Hf, Hg, Ht, Hj1, Hc1, Hf1, Hg1, Ht1, Hj2, Hc2, Hf2, Hg2, Ht2.
  rewrite !filter_app, !map_app, sizes_sum_app. repeat split.
Qed.

(** X9: the order of the entries in the capture changes neither the total
    nor what each bucket holds: after a reordering every bucket has the
    same items, only in another order, and so the same count and sum. *)
Theorem loop_reordered (es es' : list Entry) :
  Permutation es es' ->
  total_size (loop es) = total_size (loop es')
  /\ Permutation (js_files (loop es)) (js_files (loop es'))
  /\ Permutation (css_files (loop es)) (css_files (loop es'))
  /\ Permutation (font_files (loop es)) (font_files (loop es'))
  /\ Permutation (google_fonts (loop es)) (google_fonts (loop es')).
Proof.
  intros P.
  destruct (loop_buckets es) as (Hj & Hc & Hf & Hg & Ht).
  destruct (loop_buckets es') as (Hj' & Hc' & Hf' & Hg' & Ht').
  rewrite Hj, Hc, Hf, Hg, Ht, Hj', Hc', Hf', Hg', Ht'.
  split; [|repeat split; now apply Permutation_map, perm_filter].
  unfold sizes_sum. clear -P. induction P; simpl; lia.
Qed.

Lemma loop_reordered_witness :
  total_size (loop [Sample.app_js; Sample.roboto])
  = total_size (loop [Sample.roboto; Sample.app_js]).
Proof.
  apply (loop_reordered [Sample.app_js; Sample.roboto]
                        [Sample.roboto; Sample.app_js]).
  apply perm_swap.
Defined.

(** X10: every entry gives one item to one bucket at most: the sizes of the
    four buckets and the number of entries that no test of the chain
    accepts add up to the number of entries. *)
Theorem one_bucket_per_entry (es : list Entry) :
  (List.length (js_files (loop es)) + List.length (css_files (loop es))
   + List.length (font_files (loop es))
   + List.length (google_fonts (loop es))
   + List.length (filter (fun e => uncategorized e && negb (is_google e)) es)
   = List.length es)%nat.
Proof.
  destruct (loop_buckets es) as (Hj & Hc & Hf & Hg & _).
  rewrite Hj, Hc, Hf, Hg, !length_map. clear.
  induction es as [|e es IH]; [reflexivity|].
  cbn [filter]. unfold to_js, to_css, to_font, to_google, uncategorized in *.
  destruct (is_js e), (is_css e), (is_font e), (is_google e);
    cbn [negb andb List.length]; lia.
Qed.

Lemma entry_size_nonneg (e : Entry) :
  (forall c s, content (response e) = Some c -> size c = Some s -> 0 <= s) ->
  0 <= entry_size e.
Proof.
  intros H. unfold entry_size, entry_content.
  destruct (Z.ltb_spec (get (bodySize (response e)) 0) 0) as [_|L]; [|exact L].
  destruct (content (response e)) as [c|]; cbn [get empty_content size];
    [|lia].
  destruct (size c) as [s|] eqn:E; cbn [get]; [|lia].
  now apply (H c s).
Qed.

(** X11: when no content descriptor of the capture has a negative size, no
    recorded size is negative, whatever the [bodySize] fields say: every
    item of every bucket has a size of 0 or more, and the sums of the
    JavaScript, CSS and Font buckets are at most the total. *)
Theorem sizes_nonneg (data : Har) :
  Forall (fun e => forall c s,
            content (response e) = Some c -> size c = Some s -> 0 <= s)
         (entries (log data)) ->
  let st := locals_of data in
  Forall (fun item => 0 <= snd item)
         (js_files st ++ css_files st ++ font_files st ++ google_fonts st)
  /\ 0 <= total_size st
  /\ bucket_sum (js_files st) + bucket_sum (css_files st)
     + bucket_sum (font_files st) <= total_size st.
Proof.
  intros H. cbn zeta.
  assert (N : Forall (fun e => 0 <= entry_size e) (entries (log data))).
  { eapply Forall_impl; [|exact H]. intros e. apply entry_size_nonneg. }
  destruct (locals_of_buckets data) as (Hj & Hc & Hf & Hg & Ht).
  rewrite Hj, Hc, Hf, Hg, Ht, !bucket_sum_sort.
  assert (S : forall es, Forall (fun e => 0 <= entry_size e) es ->
                         0 <= sizes_sum es).
  { induction 1; cbn [sizes_sum fold_right]; [lia|].
    unfold sizes_sum in *. lia. }
  assert (F : forall (f : Entry -> string * Z) p,
            (forall e, snd (f e) = entry_size e) ->
            Forall (fun item => 0 <= snd item)
                   (map f (filter p (entries (log data))))).
  { intros f p Hfe. apply Forall_forall. intros item Hin.
    apply in_map_iff in Hin as (e & <- & Hin). apply filter_In in Hin as [Hin _].
    rewrite Hfe. rewrite Forall_forall in N. now apply N. }
  split; [|split].
  - repeat (apply Forall_app; split);
      try (eapply Permutation_Forall; [apply sort_desc_perm|]);
      now apply F.
  - now apply S.
  - pose proof (loop_sums (entries (log data))) as E.
    assert (0 <= sizes_sum (filter uncategorized (entries (log data)))).
    { apply S. apply Forall_forall. intros e Hin.
      apply filter_In in Hin as [Hin _].
      rewrite Forall_forall in N. now apply N. }
    lia.
Qed.

Lemma sizes_nonneg_witness :
  0 <= total_size (locals_of (Sample.har [Sample.app_js; Sample.cached] [])).
Proof.
  apply (sizes_nonneg (Sample.har [Sample.app_js; Sample.cached] [])).
  repeat constructor; cbn; intros c s Hc Hs; try discriminate.
  injection Hc as <-. injection Hs as <-. lia.
Defined.

(** ** The sort and the sections *)

Lemma sort_desc_length (b : Bucket) :
  List.length (sort_desc b) = List.length b.
Proof.
  symmetry. apply Permutation_length, sort_desc_perm.
Qed.

Lemma sorted_split {A : Type} (R : A -> A -> Prop) (n : nat) (l : list A)
    (x y : A) :
  StronglySorted R l -> In x (firstn n l) -> In y (skipn n l) -> R x y.
Proof.
  intros H; revert n; induction H as [|z l Hs IH Hz]; intros [|n];
    cbn [firstn skipn]; try contradiction.
  intros [->|Hx] Hy.
  - rewrite Forall_forall in Hz. apply Hz.
    rewrite <- (firstn_skipn n l). apply in_or_app. now right.
  - eapply IH; eassumption.
Qed.

(** X12: the count and the sum in the header of the JavaScript, CSS and
    Font sections are over all the entries of the category, those beyond
    the rows printed too: the sort loses and adds no item. *)
Theorem section_header_counts_all (data : Har) :
  let es := entries (log data) in
  let st := locals_of data in
  Permutation (js_files (loop es)) (js_files st)
  /\ Permutation (css_files (loop es)) (css_files st)
  /\ Permutation (font_files (loop es)) (font_files st)
  /\ line_53 (js_files st)
     = [Txt (nl ++ "📦 JavaScript Files (")%string;
        Int (len (filter to_js es)); Txt " files, ";
        Flt (sizes_sum (filter to_js es)) 1024 0 0; Txt "KB total):"]
  /\ line_57 (css_files st)
     = [Txt (nl ++ "🎨 CSS Files (")%string;
        Int (len (filter to_css es)); Txt " files, ";
        Flt (sizes_sum (filter to_css es)) 1024 0 0; Txt "KB total):"]
  /\ line_61 (font_files st)
     = [Txt (nl ++ "🔤 Font Files (")%string;
        Int (len (filter to_font es)); Txt " files, ";
        Flt (sizes_sum (filter to_font es)) 1024 0 0; Txt "KB total):"].
Proof.
  cbn zeta. unfold locals_of, sort_buckets.
  cbn [js_files css_files font_files].
  repeat split; try apply sort_desc_perm;
    destruct (loop_buckets (entries (log data))) as (Hj & Hc & Hf & _);
    unfold line_53, line_57, line_61, len;
    rewrite ?Hj, ?Hc, ?Hf, sort_desc_length, bucket_sum_sort, length_map,
      bucket_sum_named; reflexivity.
Qed.

(** X13: the sort is stable: in the JavaScript, CSS and Font buckets the
    items of one size stay in the order of their entries in the capture. *)
Theorem equal_sizes_keep_capture_order (data : Har) (k : Z) :
  let es := entries (log data) in
  let st := locals_of data in
  filter (fun item => snd item =? k) (js_files st)
  = map named_item (filter (fun e => to_js e && (entry_size e =? k)) es)
  /\ filter (fun item => snd item =? k) (css_files st)
     = map named_item (filter (fun e => to_css e && (entry_size e =? k)) es)
  /\ filter (fun item => snd item =? k) (font_files st)
     = map named_item (filter (fun e => to_font e && (entry_size e =? k)) es).
Proof.
  cbn zeta. destruct (locals_of_buckets data) as (Hj & Hc & Hf & _).
  rewrite Hj, Hc, Hf, !sort_desc_stable, !filter_map_comm, !filter_both.
  repeat split.
Qed.

(** X14: the rows of the JavaScript section are the ten largest items of
    the bucket and those of the CSS section the five largest: no item left
    out is larger than an item printed. *)
Theorem top_rows_are_largest (data : Har) (item item' : string * Z) :
  let st := locals_of data in
  (In item (firstn 10 (js_files st)) -> In item' (skipn 10 (js_files st)) ->
   snd item' <= snd item)
  /\ (In item (firstn 5 (css_files st)) -> In item' (skipn 5 (css_files st)) ->
      snd item' <= snd item).
Proof.
  cbn zeta. destruct (locals_of_buckets data) as (Hj & Hc & _).
  rewrite Hj, Hc.
  split; intros Hx Hy;
    exact (sorted_split by_size _ _ _ _ (sort_desc_sorted _) Hx Hy).
Qed.

Lemma top_rows_are_largest_witness :
  snd ("6.css", 6) <= snd ("1.css", 7).
Proof.
  apply (top_rows_are_largest
           (Sample.har
              (map (fun p => Sample.entry (fst p) (Some (snd p)) None)
                   [("6.css", 6); ("2.css", 8); ("3.css", 9); ("1.css", 7);
                    ("4.css", 9); ("5.css", 10)])
              [])
           ("1.css", 7) ("6.css", 6)).
  - vm_compute. right; right; right; right. left. reflexivity.
  - vm_compute. left. reflexivity.
Defined.

Lemma print_calls (data : Har) :
  let es := entries (log data) in
  let google := List.length (filter to_google es) in
  List.length (stdout (analyze_har data))
  = (9 + Nat.min 10 (List.length (filter to_js es))
     + Nat.min 5 (List.length (filter to_css es))
     + List.length (filter to_font es)
     + match google with O => 0 | S _ => 1 + Nat.min 5 google end
     + match outcome (analyze_har data) with inl _ => 0 | inr _ => 3 end)%nat.
Proof.
  cbn zeta. rewrite stdout_analyze_har.
  unfold size_report, header_section, total_section, js_section, css_section,
    font_section, google_section, format_section, rows.
  destruct (locals_of_buckets data) as (Hj & Hc & Hf & Hg & _).
  rewrite Hj, Hc, Hf, Hg.
  assert (G : List.length
                match map url_item (filter to_google (entries (log data))) with
                | [] => []
                | _ :: _ =>
                    line_66 (map url_item
                               (filter to_google (entries (log data))))
                    :: map (row 75)
                         (firstn 5 (map url_item
                                      (filter to_google (entries (log data)))))
                end
              = match List.length (filter to_google (entries (log data))) with
                | O => O
                | S _ => (1 + Nat.min 5 (List.length
                            (filter to_google (entries (log data)))))%nat
                end).
  { destruct (filter to_google (entries (log data))) as [|g gs];
      [reflexivity|].
    cbn [map List.length]. rewrite length_map, length_firstn.
    cbn [List.length]. rewrite length_map. reflexivity. }
  assert (M : List.length (page_metrics data)
              = match outcome (analyze_har data) with
                | inl _ => O
                | inr _ => 3%nat
                end).
  { rewrite analyze_har_run. unfold page_metrics, outcome.
    destruct (pages (log data)) as [|page ps]; [reflexivity|].
    destruct (pageTimings page); reflexivity. }
  rewrite !length_app, G, M. cbn [List.length].
  rewrite !length_map, !length_firstn, !sort_desc_length, !length_map. lia.
Qed.

Lemma rows_no_newline (width : nat) (b : Bucket) :
  filter starts_with_newline (rows width b) = [].
Proof.
  induction b as [|[name sz] b IH]; [reflexivity|]. exact IH.
Qed.

Lemma calls_with_newline (data : Har) :
  filter starts_with_newline (stdout (analyze_har data))
  = [line_51 (total_size (locals_of data));
     line_53 (js_files (locals_of data));
     line_57 (css_files (locals_of data));
     line_61 (font_files (locals_of data))]
    ++ match google_fonts (locals_of data) with
       | [] => []
       | _ :: _ => [line_66 (google_fonts (locals_of data))]
       end
    ++ [line_74]
    ++ match outcome (analyze_har data) with
       | inl _ => []
       | inr _ => [line_83]
       end.
Proof.
  rewrite stdout_analyze_har.
  assert (M : filter starts_with_newline (page_metrics data)
              = match outcome (analyze_har data) with
                | inl _ => []
                | inr _ => [line_83]
                end).
  { rewrite analyze_har_run. unfold page_metrics, outcome.
    destruct (pages (log data)) as [|page ps]; [reflexivity|].
    destruct (pageTimings page); reflexivity. }
  unfold size_report, js_section, css_section, font_section, google_section.
  rewrite !filter_app, M.
  change (filter starts_with_newline header_section) with (@nil Line).
  change (filter starts_with_newline (total_section (locals_of data)))
    with [line_51 (total_size (locals_of data))].
  change (filter starts_with_newline (format_section (locals_of data)))
    with [line_74].
  destruct (google_fonts (locals_of data)) as [|g gs];
    cbn [filter starts_with_newline line_53 line_57 line_61 line_66 nl
         String.append Ascii.eqb ascii_of_nat ascii_of_pos Bool.eqb];
    rewrite !rows_no_newline; reflexivity.
Qed.

(** X15: the size of the report, in calls of [print]: nine calls, a row for
    each of the ten first JavaScript items, of the five first CSS items and
    of every Font item, a header and five rows at most for the Google-Fonts
    items when there is one, and three calls for the page metrics when the
    run ends well; only the Font section is without a bound.  The calls
    that begin with a newline character, and so put a blank line before
    their own, are those of lines 51, 53, 57, 61 and 74, that of line 66
    when the Google-Fonts section is printed and that of line 83 when the
    run ends well: five to seven of them. *)
Theorem report_length (data : Har) :
  let es := entries (log data) in
  let google := List.length (filter to_google es) in
  List.length (stdout (analyze_har data))
  = (9 + Nat.min 10 (List.length (filter to_js es))
     + Nat.min 5 (List.length (filter to_css es))
     + List.length (filter to_font es)
     + match google with O => 0 | S _ => 1 + Nat.min 5 google end
     + match outcome (analyze_har data) with inl _ => 0 | inr _ => 3 end)%nat
  /\ List.length (filter starts_with_newline (stdout (analyze_har data)))
     = (5 + match google with O => 0 | S _ => 1 end
        + match outcome (analyze_har data) with inl _ => 0 | inr _ => 1 end)%nat.
Proof.
  cbn zeta. split; [apply print_calls|].
  rewrite calls_with_newline.
  destruct (locals_of_buckets data) as (_ & _ & _ & Hg & _). rewrite Hg.
  destruct (filter to_google (entries (log data)));
    destruct (outcome (analyze_har data)); reflexivity.
Qed.

Lemma filter_none {A : Type} (p : A -> bool) (l : list A) :
  Forall (fun x => p x = false) l -> filter p l = [].
Proof.
  induction 1 as [|x l Hx _ IH]; [reflexivity|].
  cbn [filter]. now rewrite Hx.
Qed.

(** X16: the Google-Fonts section is printed only when an entry reached the
    last branch of the chain; otherwise the font formats follow the Font
    section at once, where the JavaScript, CSS and Font sections print
    their header over an empty bucket too. *)
Theorem google_section_skipped (data : Har) :
  Forall (fun e => to_google e = false) (entries (log data)) ->
  let st := locals_of data in
  stdout (analyze_har data)
  = header_section ++ total_section st
    ++ (line_53 (js_files st) :: rows 45 (firstn 10 (js_files st)))
    ++ (line_57 (css_files st) :: rows 45 (firstn 5 (css_files st)))
    ++ (line_61 (font_files st) :: rows 45 (font_files st))
    ++ format_section st ++ page_metrics data.
Proof.
  intros H. cbn zeta. rewrite stdout_analyze_har.
  unfold size_report, js_section, css_section, font_section, google_section.
  destruct (locals_of_buckets data) as (_ & _ & _ & Hg & _). rewrite Hg.
  replace (filter to_google (entries (log data))) with (@nil Entry).
  - cbn [map app]. repeat (rewrite <- app_assoc; cbn [app]). reflexivity.
  - symmetry. now apply filter_none.
Qed.

Lemma google_section_skipped_witness :
  stdout (analyze_har (Sample.har [] []))
  = [line_48; line_49; line_51 0; line_53 []; line_57 []; line_61 [];
     line_74; line_75 0; line_76 0].
Proof.
  apply (google_section_skipped (Sample.har [] [])). constructor.
Defined.

(** X17: the font formats are counted on the display names of the Font
    bucket, not on the URLs: a count is the number of Font entries whose
    name, cut to 50 characters, holds the extension, and it is between 0
    and the size of the bucket. *)
Theorem font_formats_counted_on_names (data : Har) (ext : string) :
  let es := entries (log data) in
  let st := locals_of data in
  count_format ext (font_files st)
  = len (filter (fun e => to_font e
                          && PyStr.contains ext (file_name (entry_url e))) es)
  /\ 0 <= count_format ext (font_files st) <= len (font_files st).
Proof.
  cbn zeta. destruct (locals_of_buckets data) as (_ & _ & Hf & _).
  unfold count_format, len. rewrite Hf. split.
  - f_equal.
    rewrite <- (Permutation_length
                  (perm_filter _ _ _ (sort_desc_perm _))).
    rewrite filter_map_comm, filter_both, length_map. reflexivity.
  - split; [lia|]. apply inj_le.
    clear. generalize (sort_desc
      (map named_item (filter to_font (entries (log data))))) as l.
    induction l as [|x l IH]; [cbn; lia|].
    cbn [filter]. destruct (PyStr.contains ext (fst x)); cbn [List.length]; lia.
Qed.

(** ** The end of the run *)

(** X18: on a capture that has the keys the script reads with a subscript
    up to line 79 ([log], [entries], [pages], and [request], [url] and
    [response] in each entry), the end of the run is decided by the first
    page alone: the run ends well exactly when there is a first page with
    its [pageTimings]; it ends with an [IndexError] exactly when there is
    no page; and it ends with a [KeyError] on [pageTimings] exactly when
    the first page has no [pageTimings]. *)
Theorem run_outcomes (data : Har) :
  (outcome (analyze_har data) = inr tt <->
   exists page rest timings,
     pages (log data) = page :: rest /\ pageTimings page = Some timings)
  /\ (outcome (analyze_har data) = inl IndexError <-> pages (log data) = [])
  /\ (outcome (analyze_har data) = inl (KeyError "pageTimings") <->
      exists page rest,
        pages (log data) = page :: rest /\ pageTimings page = None).
Proof.
  rewrite analyze_har_run. unfold outcome.
  destruct (pages (log data)) as [|page ps]; cbn [snd].
  - split; [split|split; [split|split]].
    + discriminate.
    + intros (page & rest & timings & H & _). discriminate.
    + reflexivity.
    + reflexivity.
    + discriminate.
    + intros (page & rest & H & _). discriminate.
  - destruct (pageTimings page) as [timings|] eqn:E; cbn [snd].
    + split; [split|split; [split|split]]; try discriminate.
      * intros _. exists page, ps, timings. now split.
      * reflexivity.
      * intros (page' & rest & [= <- <-] & H). congruence.
    + split; [split|split; [split|split]]; try discriminate.
      * intros (page' & rest & timings & [= <- <-] & H). congruence.
      * intros _. exists page, ps. now split.
      * reflexivity.
Qed.

(** X19: only the first page is read: two captures with the same entries
    and the same first page give the same run, whatever pages follow. *)
Theorem only_first_page_read (data data' : Har) :
  entries (log data) = entries (log data') ->
  hd_error (pages (log data)) = hd_error (pages (log data')) ->
  analyze_har data = analyze_har data'.
Proof.
  intros He Hp. rewrite !analyze_har_run. unfold locals_of. rewrite He.
  destruct (pages (log data)) as [|p ps], (pages (log data')) as [|p' ps'];
    cbn [hd_error] in Hp; try discriminate; [reflexivity|].
  now injection Hp as <-.
Qed.

Lemma only_first_page_read_witness :
  analyze_har (Sample.har [Case.style] [Case.page; Case.other_page])
  = analyze_har (Sample.har [Case.style] [Case.page]).
Proof.
  apply (only_first_page_read
           (Sample.har [Case.style] [Case.page; Case.other_page])
           (Sample.har [Case.style] [Case.page])); reflexivity.
Defined.

(** X20: a capture with no entry prints the whole frame of the report: a
    total of 0, the three section headers with 0 files and a sum of 0, no
    row, no Google-Fonts section, and 0 for both font formats; then the
    page metrics as for any capture. *)
Theorem empty_capture_report (data : Har) :
  entries (log data) = [] ->
  stdout (analyze_har data)
  = [line_48; line_49; line_51 0;
     [Txt (nl ++ "📦 JavaScript Files (")%string; Int 0; Txt " files, ";
      Flt 0 1024 0 0; Txt "KB total):"];
     [Txt (nl ++ "🎨 CSS Files (")%string; Int 0; Txt " files, ";
      Flt 0 1024 0 0; Txt "KB total):"];
     [Txt (nl ++ "🔤 Font Files (")%string; Int 0; Txt " files, ";
      Flt 0 1024 0 0; Txt "KB total):"];
     line_74; line_75 0; line_76 0]
    ++ page_metrics data.
Proof.
  intros H. rewrite stdout_analyze_har. unfold locals_of. now rewrite H.
Qed.

Lemma empty_capture_report_witness :
  stdout (analyze_har (Sample.har [] [Case.page]))
  = [line_48; line_49; line_51 0; line_53 []; line_57 []; line_61 [];
     line_74; line_75 0; line_76 0; line_83; line_84 0; line_85 2500].
Proof.
  apply (empty_capture_report (Sample.har [] [Case.page])). reflexivity.
Defined.
